(** * oclapi: abstract resource models and organization serializers

    A shallow embedding of [ocl/oclapi/models.py] and
    [ocl/orgs/serializers.py].  Python values are an inductive type,
    keyword dictionaries ([attrs], [_errors]) are finite maps over
    strings, the object manager of a model is the list of its stored
    rows, and calls that raise return a sum whose left side is the
    exception. *)

From Stdlib Require Import ZArith Ascii String List Bool Lia.
From stdpp Require Import base option list gmap strings.

Open Scope string_scope.

(** ** Python-level preliminaries *)

Module Py.

(** Exceptions that cross the code under study. *)
Inductive exn : Type :=
| ValidationError (message : string)
| DatabaseError (message : string).

(** The outcome of a call that may raise. *)
Definition result (A : Type) : Type := exn + A.

Definition ret {A : Type} (a : A) : result A := inr a.
Definition raise {A : Type} (e : exn) : result A := inl e.
Definition bind {A B : Type} (m : result A) (k : A -> result B) : result B :=
  match m with
  | inl e => inl e
  | inr a => k a
  end.

(** The values that travel through serializer attributes: [None], text,
    and the free-form key/value mapping of the [extras] field. *)
Inductive value : Type :=
| VNone
| VStr (s : string)
| VDict (d : list (string * string)).

#[global] Instance value_eq_dec : EqDecision value.
Proof. solve_decision. Defined.

(** [str(v)] as used by ['%s' % v]. *)
Definition str_pairs (d : list (string * string)) : string :=
  String.concat ", " (map (fun kv => fst kv ++ ": " ++ snd kv) d).

Definition str (v : value) : string :=
  match v with
  | VNone => "None"
  | VStr s => s
  | VDict d => "{" ++ str_pairs d ++ "}"
  end.

(** [d.get(key, default)]. *)
Definition dict_get (d : gmap string value) (key : string) (default : value) : value :=
  match d !! key with
  | Some v => v
  | None => default
  end.

End Py.

(** ** The [re] fragment used by [NAMESPACE_REGEX] *)

Module Re.

(** One member of a bracketed character set: a range [a-z] or a single
    (possibly escaped) character. *)
Inductive set_item : Type :=
| Range (lo hi : ascii)
| Lit (c : ascii).

(** Pattern atoms, in the order they are written in the pattern. *)
Inductive atom : Type :=
| Bol                                   (* ^ *)
| Eol                                   (* $ *)
| OneOrMore (cls : list set_item).      (* [...]+ *)

Definition pattern : Type := list atom.

Definition code (c : ascii) : N := N_of_ascii c.

Definition item_matches (i : set_item) (c : ascii) : bool :=
  match i with
  | Range lo hi => (code lo <=? code c)%N && (code c <=? code hi)%N
  | Lit x => (code x =? code c)%N
  end.

Definition in_set (cls : list set_item) (c : ascii) : bool :=
  existsb (fun i => item_matches i c) cls.

Definition newline : ascii := ascii_of_nat 10.

(** Without the MULTILINE flag, [$] matches at the end of the subject and
    also just before a newline that is the last character of the subject. *)
Definition at_eol (rest : list ascii) : bool :=
  match rest with
  | [] => true
  | [c] => (code c =? code newline)%N
  | _ => false
  end.

(** Backtracking match of [p] at the current position; [bos] tells whether
    the position is the beginning of the subject, [rest] is the unread
    part. *)
Fixpoint match_here (p : pattern) (bos : bool) (rest : list ascii) {struct p} : bool :=
  match p with
  | [] => true
  | Bol :: p' => bos && match_here p' bos rest
  | Eol :: p' => at_eol rest && match_here p' bos rest
  | OneOrMore cls :: p' =>
      (fix more (rest : list ascii) : bool :=
         match rest with
         | [] => false
         | c :: rest' => in_set cls c && (more rest' || match_here p' false rest')
         end) rest
  end.

(** [regex.search]: a match starting at some position of the subject. *)
Fixpoint search_from (p : pattern) (bos : bool) (rest : list ascii) : bool :=
  match_here p bos rest ||
  match rest with
  | [] => false
  | _ :: rest' => search_from p false rest'
  end.

Definition search (p : pattern) (subject : string) : bool :=
  search_from p true (list_ascii_of_string subject).

(** The characters of a subject. *)
Definition chars (s : string) : list ascii := list_ascii_of_string s.

(** The loop of [[...]+] followed by [$], as [match_here] unfolds it. *)
Definition set_plus_eol (cls : list set_item) : list ascii -> bool :=
  fix more (rest : list ascii) : bool :=
    match rest with
    | [] => false
    | c :: rest' =>
        in_set cls c && (more rest' || match_here [Eol] false rest')
    end.

End Re.

(** ** [oclapi/models.py] *)

Module Models.
Import Py.

(** [NAMESPACE_REGEX = re.compile(r'^[a-zA-Z0-9\-\.]+$')] *)
Definition namespace_set : list Re.set_item :=
  [Re.Range "a" "z"; Re.Range "A" "Z"; Re.Range "0" "9"; Re.Lit "-"; Re.Lit "."]%char.

Definition NAMESPACE_REGEX : Re.pattern :=
  [Re.Bol; Re.OneOrMore namespace_set; Re.Eol].

(** [RegexValidator(regex=...)] applied to a value: the validator raises
    when [regex.search(value)] finds nothing. *)
Definition RegexValidator (regex : Re.pattern) (value : string) : result unit :=
  if Re.search regex value
  then ret tt
  else raise (ValidationError "Enter a valid value.").

(** The [validators=[...]] list of a field, run in order. *)
Fixpoint run_validators (validators : list (string -> result unit)) (value : string)
  : result unit :=
  match validators with
  | [] => ret tt
  | v :: vs => bind (v value) (fun _ => run_validators vs value)
  end.

(** The validators declared on the [mnemonic] field of [BaseResourceModel],
    [SubResourceBaseModel] and [ResourceVersionModel]. *)
Definition mnemonic_validators : list (string -> result unit) :=
  [RegexValidator NAMESPACE_REGEX].

(** *** [BaseModel] *)

Record BaseModel : Type := mkBaseModel {
  created_at : Z;
  updated_at : Z;
  is_active : bool;
  extras : value
}.

#[global] Instance BaseModel_eq_dec : EqDecision BaseModel.
Proof. solve_decision. Defined.

(** The storage layer as [save()] of one instance sees it: the clock that
    feeds the timestamps, and the states written for the instance so far,
    oldest first.  Nothing written means the instance has no row yet. *)
Record Storage : Type := mkStorage {
  now : Z;
  written : list BaseModel
}.

Definition set_is_active (b : bool) (self : BaseModel) : BaseModel :=
  {| created_at := created_at self;
     updated_at := updated_at self;
     is_active := b;
     extras := extras self |}.

(** [self.save()]: [updated_at] is an [auto_now] field, stamped by every
    save; [created_at] is an [auto_now_add] field, stamped by the save that
    inserts the row; and the instance state reaches the storage. *)
Definition save (self : BaseModel) (st : Storage) : BaseModel * Storage :=
  let self' := {| created_at := match written st with
                                | [] => now st
                                | _ :: _ => created_at self
                                end;
                  updated_at := now st;
                  is_active := is_active self;
                  extras := extras self |} in
  (self', {| now := now st; written := written st ++ [self'] |}).

Definition soft_delete (self : BaseModel) (st : Storage) : BaseModel * Storage :=
  if is_active self
  then save (set_is_active false self) st
  else (self, st).

Definition undelete (self : BaseModel) (st : Storage) : BaseModel * Storage :=
  if negb (is_active self)
  then save (set_is_active true self) st
  else (self, st).

(** Sequencing of two instance methods on the same instance. *)
Definition and_then (f g : BaseModel -> Storage -> BaseModel * Storage)
  (self : BaseModel) (st : Storage) : BaseModel * Storage :=
  let '(self', st') := f self st in g self' st'.

(** *** [ResourceVersionModel] *)

(** What a foreign key to ['self'] gives when it is read on an instance:
    the instance that holds it, or another instance of the model, known by
    its primary key.  The primary key of an instance is [None] until its
    first save. *)
Inductive related : Type :=
| Itself
| Another (pk : option string).

#[global] Instance related_eq_dec : EqDecision related.
Proof. solve_decision. Defined.

Record ResourceVersionModel : Type := mkResourceVersionModel {
  id : option string;
  base : BaseModel;
  mnemonic : string;
  versioned_object_id : string;
  versioned_object_type : string;
  released : bool;
  previous_version : option related;
  parent_version : option related
}.

#[global] Instance ResourceVersionModel_eq_dec : EqDecision ResourceVersionModel.
Proof. solve_decision. Defined.

(** The primary key of what a foreign key of [self] gives. *)
Definition related_pk (self : ResourceVersionModel) (r : related) : option string :=
  match r with
  | Itself => id self
  | Another pk => pk
  end.

(** [self == other] where [other] is what a foreign key of [self] gives:
    [Model.__eq__] holds for an instance of the model class with an equal
    primary key, two keys that are both [None] included, and never for
    [None]. *)
Definition instance_eq (self : ResourceVersionModel) (other : option related) : bool :=
  match other with
  | Some r => bool_decide (id self = related_pk self r)
  | None => false
  end.

Definition clean (self : ResourceVersionModel) : result unit :=
  if instance_eq self (parent_version self)
  then raise (ValidationError "version cannot be its own parent")
  else ret tt.

(** [objects.filter(versioned_object_id=..., is_active=True)] *)
Definition filter_active_versions (objects : list ResourceVersionModel) (oid : string)
  : list ResourceVersionModel :=
  List.filter
    (fun v => bool_decide (versioned_object_id v = oid) && is_active (base v))
    objects.

(** [order_by('-created_at')]: newest first, equal timestamps left in the
    order the rows came in. *)
Fixpoint insert_newest_first (v : ResourceVersionModel) (l : list ResourceVersionModel)
  : list ResourceVersionModel :=
  match l with
  | [] => [v]
  | w :: l' =>
      if (created_at (base w) <=? created_at (base v))%Z
      then v :: w :: l'
      else w :: insert_newest_first v l'
  end.

Definition order_by_created_at_desc (l : list ResourceVersionModel)
  : list ResourceVersionModel :=
  foldr insert_newest_first [] l.

(** [get_latest_version_of(cls, versioned_object)]; [objects] is the
    manager of [versioned_object.get_version_model()] and [oid] is
    [versioned_object.id]. *)
Definition get_latest_version_of (objects : list ResourceVersionModel) (oid : string)
  : option ResourceVersionModel :=
  let versions := order_by_created_at_desc (filter_active_versions objects oid) in
  match versions with
  | v :: _ => Some v
  | [] => None
  end.

(** The timestamp [order_by] sorts on. *)
Definition created (v : ResourceVersionModel) : Z := created_at (base v).

(** The rows [filter(...)] keeps. *)
Definition is_active_version_of (oid : string) (v : ResourceVersionModel) : Prop :=
  versioned_object_id v = oid /\ is_active (base v) = true.

(** No row of the list is newer than its first row. *)
Definition newest_first_head (l : list ResourceVersionModel) : Prop :=
  match l with
  | [] => True
  | v :: _ => forall w, In w l -> (created w <= created v)%Z
  end.

(** *** Token provisioning *)

Record User : Type := mkUser {
  user_pk : Z;
  username : string
}.

#[global] Instance User_eq_dec : EqDecision User.
Proof. solve_decision. Defined.

Record Token : Type := mkToken {
  key : N;
  user : User
}.

(** The token table behind [Token.objects]: its rows, the source of fresh
    keys, and whether the backend currently accepts writes. *)
Record TokenTable : Type := mkTokenTable {
  tokens : list Token;
  next_key : N;
  reachable : bool
}.

(** [Token.objects.create(user=...)] *)
Definition Token_objects_create (u : User) (t : TokenTable) : result TokenTable :=
  if reachable t
  then ret {| tokens := tokens t ++ [ {| key := next_key t; user := u |} ];
              next_key := N.succ (next_key t);
              reachable := reachable t |}
  else raise (DatabaseError "token table unavailable").

(** The [post_save] receiver registered for [sender=User]. *)
Definition create_auth_token (sender : string) (instance : User) (created : bool)
  (t : TokenTable) : result TokenTable :=
  if created
  then Token_objects_create instance t
  else ret t.

End Models.

(** ** [orgs/serializers.py] *)

Module Serializers.
Import Py.

(** Modelled from the spec: the [Organization] model class of [orgs.models],
    which the serializers import.  It is a top-level named resource, so it
    carries the [BaseModel] flag and [extras], the [mnemonic] of a
    [BaseResourceModel], and the [name], [company] and [website] fields the
    serializers read and write; [uuid] is its primary key, [None] until the
    first save. *)
Record Organization : Type := mkOrganization {
  uuid : option string;
  is_active : bool;
  mnemonic : value;
  name : value;
  company : value;
  website : value;
  extras : value
}.

#[global] Instance Organization_eq_dec : EqDecision Organization.
Proof. solve_decision. Defined.

(** What [restore_object] of the create serializer can see and change: the
    serializer's [_errors] dictionary and the rows behind
    [Organization.objects]. *)
Record World : Type := mkWorld {
  _errors : gmap string string;
  objects : list Organization
}.

(** [Organization.objects.filter(mnemonic=m).exists()] *)
Definition mnemonic_exists (rows : list Organization) (m : value) : bool :=
  existsb (fun o => bool_decide (mnemonic o = m)) rows.

Definition already_exists (m : value) : string :=
  "Organization with mnemonic " ++ str m ++ " already exists.".

(** The validators of the create serializer's [id] field. *)
Definition id_validators : list (string -> result unit) :=
  [Models.RegexValidator Models.NAMESPACE_REGEX].

(** Attribute assignments [o.field = v]. *)
Definition set_company (v : value) (o : Organization) : Organization :=
  {| uuid := uuid o; is_active := is_active o; mnemonic := mnemonic o;
     name := name o; company := v; website := website o; extras := extras o |}.

Definition set_website (v : value) (o : Organization) : Organization :=
  {| uuid := uuid o; is_active := is_active o; mnemonic := mnemonic o;
     name := name o; company := company o; website := v; extras := extras o |}.

Definition set_extras (v : value) (o : Organization) : Organization :=
  {| uuid := uuid o; is_active := is_active o; mnemonic := mnemonic o;
     name := name o; company := company o; website := website o; extras := v |}.

Definition set_name (v : value) (o : Organization) : Organization :=
  {| uuid := uuid o; is_active := is_active o; mnemonic := mnemonic o;
     name := v; company := company o; website := website o; extras := extras o |}.

Section Create.

(** The values the model class gives to [company] and [website] when the
    constructor call does not name them. *)
Variables default_company default_website : value.

(** [Organization(name=..., mnemonic=...)]: the remaining fields take the
    defaults of the model class. *)
Definition Organization_init (name_ mnemonic_ : value) : Organization :=
  {| uuid := None;
     is_active := true;
     mnemonic := mnemonic_;
     name := name_;
     company := default_company;
     website := default_website;
     extras := VDict [] |}.

(** [OrganizationCreateSerializer.restore_object(self, attrs, instance=None)] *)
Definition create_restore_object (attrs : gmap string value)
  (instance : option Organization) (w : World) : option Organization * World :=
  let mnemonic_ := dict_get attrs "mnemonic" VNone in
  if mnemonic_exists (objects w) mnemonic_
  then (None,
        {| _errors := <["mnemonic" := already_exists mnemonic_]> (_errors w);
           objects := objects w |})
  else
    let organization := Organization_init (dict_get attrs "name" VNone) mnemonic_ in
    let organization := set_company (dict_get attrs "company" VNone) organization in
    let organization := set_website (dict_get attrs "website" VNone) organization in
    let organization := set_extras (dict_get attrs "extras" VNone) organization in
    (Some organization, w).

End Create.

(** [OrganizationDetailSerializer.restore_object(self, attrs, instance)] *)
Definition detail_restore_object (attrs : gmap string value) (instance : Organization)
  : Organization :=
  let instance := set_name (dict_get attrs "name" (name instance)) instance in
  let instance := set_company (dict_get attrs "company" (company instance)) instance in
  let instance := set_website (dict_get attrs "website" (website instance)) instance in
  let instance := set_extras (dict_get attrs "extras" (extras instance)) instance in
  instance.

End Serializers.

(** ** Default view names ([BaseModel.get_default_view_name]) *)

Module ViewNames.

(** [str.lower()] on the ASCII letters. *)
Definition lower_char (c : ascii) : ascii :=
  let n := N_of_ascii c in
  if (65 <=? n)%N && (n <=? 90)%N then ascii_of_N (n + 32) else c.

Fixpoint lower (s : string) : string :=
  match s with
  | EmptyString => EmptyString
  | String c s' => String (lower_char c) (lower s')
  end.

(** The outcome of [fmt % mapping]: the text, or the exception raised.
    [Unsupported] stands for a conversion this fragment does not cover
    (anything but [%%] and [%(key)s]). *)
Inductive format_result : Type :=
| Formatted (text : string)
| KeyError (key : string)
| ValueError (message : string)
| Unsupported.

Definition emit (c : ascii) (r : format_result) : format_result :=
  match r with
  | Formatted text => Formatted (String c text)
  | other => other
  end.

Definition emit_string (s : string) (r : format_result) : format_result :=
  match r with
  | Formatted text => Formatted (s ++ text)
  | other => other
  end.

Definition is_char (x c : ascii) : bool := (N_of_ascii x =? N_of_ascii c)%N.

(** [fmt % kwargs] for a dictionary of text values.  A mapping key runs to
    the parenthesis that closes it, nested parentheses counted. *)
Fixpoint percent_format (fmt : list ascii) (kwargs : gmap string string) {struct fmt}
  : format_result :=
  match fmt with
  | [] => Formatted ""
  | c :: rest =>
      if negb (is_char "%" c) then emit c (percent_format rest kwargs)
      else
        match rest with
        | [] => ValueError "incomplete format"
        | d :: rest' =>
            if is_char "%" d then emit "%" (percent_format rest' kwargs)
            else if is_char "(" d then
              (fix read_key (r : list ascii) (depth : nat) (key : string) {struct r}
                 : format_result :=
                 match r with
                 | [] => ValueError "incomplete format key"
                 | e :: r' =>
                     if is_char ")" e then
                       match depth with
                       | O =>
                           match r' with
                           | [] => ValueError "incomplete format"
                           | t :: r'' =>
                               if is_char "s" t then
                                 match kwargs !! key with
                                 | Some v => emit_string v (percent_format r'' kwargs)
                                 | None => KeyError key
                                 end
                               else Unsupported
                           end
                       | S depth' => read_key r' depth' (key ++ String e "")
                       end
                     else if is_char "(" e then read_key r' (S depth) (key ++ String e "")
                     else read_key r' depth (key ++ String e "")
                 end) rest' O ""
            else Unsupported
        end
  end.

(** [model._meta], as far as the view name reads it. *)
Record Options : Type := mkOptions {
  app_label : string;
  object_name : string
}.

(** [BaseModel._default_view_name] *)
Definition _default_view_name : string := "%(model_name)s-detail".

(** [BaseModel.get_default_view_name] *)
Definition get_default_view_name (model_meta : Options) : format_result :=
  let format_kwargs : gmap string string :=
    <["model_name" := lower (object_name model_meta)]>
      (<["app_label" := app_label model_meta]> ∅) in
  percent_format (list_ascii_of_string _default_view_name) format_kwargs.

(** [BaseModel.view_name] *)
Definition view_name (model_meta : Options) : format_result :=
  get_default_view_name model_meta.

Definition is_upper (c : ascii) : bool :=
  (65 <=? N_of_ascii c)%N && (N_of_ascii c <=? 90)%N.

End ViewNames.

(** ** Runs of operations *)

Module Runs.
Import Py Models.

(** The two toggles of [BaseModel]. *)
Inductive toggle : Type := SoftDelete | Undelete.

Definition apply_toggle (op : toggle) : BaseModel -> Storage -> BaseModel * Storage :=
  match op with
  | SoftDelete => soft_delete
  | Undelete => undelete
  end.

(** Calls made one after the other on the same instance. *)
Fixpoint run_toggles (ops : list toggle) (self : BaseModel) (st : Storage)
  : BaseModel * Storage :=
  match ops with
  | [] => (self, st)
  | op :: ops' =>
      let '(self', st') := apply_toggle op self st in run_toggles ops' self' st'
  end.

(** The [post_save] signals of a series of [User] saves, each with the saved
    instance and its [created] flag, delivered in order; an exception of the
    receiver ends the series. *)
Fixpoint post_save_all (saves : list (User * bool)) (t : TokenTable) : result TokenTable :=
  match saves with
  | [] => ret t
  | (instance, created) :: rest =>
      bind (create_auth_token "User" instance created t) (post_save_all rest)
  end.

(** The users a series of saves creates. *)
Definition created_users (saves : list (User * bool)) : list User :=
  map fst (List.filter snd saves).

End Runs.

(** ** Default fields of the detail serializer *)

Module Fields.

(** The serializer fields that occur in [orgs/serializers.py]. *)
Inductive Field : Type :=
| CharField
| IntegerField
| DateTimeField
| WritableField
| HyperlinkedResourceIdentityField (view_name : string).

(** [OrganizationDetailSerializer.get_default_fields]; [super_fields] is
    what the parent class returns, and [fields.update] writes over it. *)
Definition get_default_fields (super_fields : gmap string Field) : gmap string Field :=
  let fields := super_fields in
  <["members_url" := HyperlinkedResourceIdentityField "organization-members"]>
    (<["sources_url" := HyperlinkedResourceIdentityField "source-list"]>
       (<["collections_url" := HyperlinkedResourceIdentityField "collection-list"]>
          fields)).

Definition url_fields : list string := ["members_url"; "sources_url"; "collections_url"].

End Fields.

(** ** Sample data *)

Module Samples.
Import Py.

Definition version_at (pk : string) (t : Z) (active : bool) : Models.ResourceVersionModel :=
  Models.mkResourceVersionModel (Some pk) (Models.mkBaseModel t t active VNone)
    pk "src1" "source" false None None.

Definition who : Serializers.Organization :=
  Serializers.mkOrganization (Some "5f1") true (VStr "WHO") (VStr "World Health Organization")
    (VStr "WHO") VNone (VDict []).

Definition ocl_attrs : gmap string value :=
  <["mnemonic" := VStr "OCL"]> {["name" := VStr "Open Concept Lab"]}.

End Samples.

(** * Properties *)

(** ** Mnemonic validation *)

Module ReFacts.
Import Py Models.

Lemma match_here_namespace bos rest :
  Re.match_here NAMESPACE_REGEX bos rest = bos && Re.set_plus_eol namespace_set rest.
Proof. reflexivity. Qed.

Lemma code_inj c d : (Re.code c =? Re.code d)%N = true -> c = d.
Proof.
  intros H. apply N.eqb_eq in H. unfold Re.code in H.
  rewrite <- (ascii_N_embedding c), <- (ascii_N_embedding d). now rewrite H.
Qed.

Lemma at_eol_true rest :
  Re.at_eol rest = true <-> rest = [] \/ rest = [Re.newline].
Proof.
  destruct rest as [|c [|d rest]]; simpl; split; intros H.
  - now left.
  - reflexivity.
  - right. f_equal. now apply code_inj.
  - destruct H as [H|H]; [discriminate|]. injection H as ->. apply N.eqb_refl.
  - discriminate.
  - destruct H as [H|H]; discriminate.
Qed.

Lemma newline_outside_set : Re.in_set namespace_set Re.newline = false.
Proof. reflexivity. Qed.

(** What the loop accepts: a non-empty run of set characters that ends the
    subject, or that is followed by exactly one final newline. *)
Lemma set_plus_eol_true cls rest :
  Re.set_plus_eol cls rest = true <->
  exists w, w <> [] /\ forallb (Re.in_set cls) w = true /\
            (rest = w \/ rest = (w ++ [Re.newline])%list).
Proof.
  induction rest as [|c rest IH]; simpl.
  - split; [discriminate|].
    intros (w & Hw & _ & [H|H]); [congruence|].
    destruct w; discriminate.
  - rewrite andb_true_iff, orb_true_iff, IH, andb_true_r, at_eol_true.
    split.
    + intros [Hc [(w & Hw & Hall & Hrest) | Hend]].
      * exists (c :: w). split; [discriminate|]. split.
        { simpl. now rewrite Hc, Hall. }
        destruct Hrest as [-> | ->]; [now left | now right].
      * exists [c]. split; [discriminate|]. split.
        { simpl. now rewrite Hc. }
        destruct Hend as [-> | ->]; [now left | now right].
    + intros (w & Hw & Hall & Hrest).
      destruct w as [|d w]; [congruence|].
      simpl in Hall. apply andb_true_iff in Hall as [Hd Hall].
      assert (c = d /\ (rest = w \/ rest = (w ++ [Re.newline])%list)) as [-> Hrest'].
      { destruct Hrest as [H|H]; injection H as -> ->; auto. }
      split; [exact Hd|].
      destruct w as [|e w].
      * right. exact Hrest'.
      * left. exists (e :: w). split; [discriminate|]. auto.
Qed.

Lemma search_from_bol p rest :
  Re.search_from (Re.Bol :: p) false rest = false.
Proof. induction rest as [|c rest IH]; simpl; [reflexivity | exact IH]. Qed.

Lemma search_namespace s :
  Re.search NAMESPACE_REGEX s = Re.set_plus_eol namespace_set (Re.chars s).
Proof.
  unfold Re.search, Re.chars. destruct (list_ascii_of_string s) as [|c rest].
  - reflexivity.
  - cbn [Re.search_from]. unfold NAMESPACE_REGEX at 2.
    rewrite search_from_bol, orb_false_r. apply match_here_namespace.
Qed.

(** The validator accepts exactly the non-empty words over the set, with or
    without one newline after them. *)
Lemma RegexValidator_namespace_accepts s :
  RegexValidator NAMESPACE_REGEX s = ret tt <->
  exists w, w <> [] /\ forallb (Re.in_set namespace_set) w = true /\
            (Re.chars s = w \/ Re.chars s = (w ++ [Re.newline])%list).
Proof.
  unfold RegexValidator. rewrite <- set_plus_eol_true, <- search_namespace.
  destruct (Re.search NAMESPACE_REGEX s); split; intros H;
    try reflexivity; try discriminate.
Qed.

(** A character outside the set anywhere but in a final newline is rejected. *)
Lemma RegexValidator_namespace_rejects s pre c post :
  Re.chars s = (pre ++ c :: post)%list ->
  Re.in_set namespace_set c = false ->
  post <> [] \/ c <> Re.newline ->
  RegexValidator NAMESPACE_REGEX s = raise (ValidationError "Enter a valid value.").
Proof.
  intros Hs Hc Hpos. unfold RegexValidator.
  destruct (Re.search NAMESPACE_REGEX s) eqn:E; [exfalso | reflexivity].
  rewrite search_namespace in E. apply set_plus_eol_true in E.
  destruct E as (w & _ & Hall & Hw).
  assert (Hin : forall x, In x w -> Re.in_set namespace_set x = true).
  { now apply forallb_forall. }
  rewrite Hs in Hw. destruct Hw as [Hw | Hw].
  - rewrite (Hin c) in Hc; [discriminate|]. rewrite <- Hw. apply in_elt.
  - destruct post as [|p0 post0].
    + change ((pre ++ [c])%list = (w ++ [Re.newline])%list) in Hw.
      apply app_inj_tail in Hw as [_ ->]. destruct Hpos; congruence.
    + destruct (@exists_last _ (p0 :: post0)) as (post' & z & Hp); [discriminate|].
      rewrite Hp, app_comm_cons, app_assoc in Hw.
      apply app_inj_tail in Hw as [Hw _].
      rewrite (Hin c) in Hc; [discriminate|]. rewrite <- Hw. apply in_elt.
Qed.

End ReFacts.

Module ModelsFacts.
Import Py Models ReFacts Samples.

(** C5 (defect in the code): every mnemonic with a character outside
    [[a-zA-Z0-9\-.]] should fail validation, on the models and on the create
    serializer's id field.  The value [abc] followed by a newline contains a
    character outside the set and passes both validator lists, because [$]
    also matches before a final newline. *)
Theorem mnemonic_with_final_newline_passes :
  let s := String "a" (String "b" (String "c" (String Re.newline EmptyString))) in
  In Re.newline (Re.chars s) /\
  Re.in_set namespace_set Re.newline = false /\
  run_validators mnemonic_validators s = ret tt /\
  run_validators Serializers.id_validators s = ret tt.
Proof. cbv zeta. repeat split; try reflexivity. simpl. tauto. Qed.

Example mnemonic_plain_passes :
  run_validators mnemonic_validators "CIEL-1.0" = ret tt.
Proof. reflexivity. Qed.

Example mnemonic_with_space_fails :
  run_validators mnemonic_validators "my org" =
  raise (ValidationError "Enter a valid value.").
Proof. reflexivity. Qed.

Example mnemonic_empty_fails :
  run_validators mnemonic_validators "" =
  raise (ValidationError "Enter a valid value.").
Proof. reflexivity. Qed.

(** ** Soft deletion *)

Lemma soft_delete_active self st :
  is_active self = true ->
  soft_delete self st = save (set_is_active false self) st.
Proof. intros H. unfold soft_delete. now rewrite H. Qed.

Lemma soft_delete_inactive self st :
  is_active self = false -> soft_delete self st = (self, st).
Proof. intros H. unfold soft_delete. now rewrite H. Qed.

Lemma undelete_inactive self st :
  is_active self = false ->
  undelete self st = save (set_is_active true self) st.
Proof. intros H. unfold undelete. now rewrite H. Qed.

Lemma undelete_active self st :
  is_active self = true -> undelete self st = (self, st).
Proof. intros H. unfold undelete. now rewrite H. Qed.

Lemma save_is_active self st : is_active (fst (save self st)) = is_active self.
Proof. reflexivity. Qed.

Lemma save_written self st :
  written (snd (save self st)) = (written st ++ [fst (save self st)])%list.
Proof. reflexivity. Qed.

(** C3: [soft_delete] on an active instance clears [is_active] and writes
    the instance; [undelete] on an inactive instance sets it and writes the
    instance; [soft_delete] then [undelete] ends with [is_active] true; and
    either operation repeated equals itself once, the second call leaving
    instance and storage as they are. *)
Theorem soft_delete_undelete_toggle (self : BaseModel) (st : Storage) :
  (is_active self = true ->
     is_active (fst (soft_delete self st)) = false /\
     written (snd (soft_delete self st)) =
       (written st ++ [fst (soft_delete self st)])%list) /\
  (is_active self = false ->
     is_active (fst (undelete self st)) = true /\
     written (snd (undelete self st)) =
       (written st ++ [fst (undelete self st)])%list) /\
  is_active (fst (and_then soft_delete undelete self st)) = true /\
  and_then soft_delete soft_delete self st = soft_delete self st /\
  and_then undelete undelete self st = undelete self st /\
  (forall self' st', soft_delete self st = (self', st') ->
     soft_delete self' st' = (self', st')) /\
  (forall self' st', undelete self st = (self', st') ->
     undelete self' st' = (self', st')).
Proof.
  repeat split.
  - rewrite soft_delete_active by assumption. reflexivity.
  - rewrite soft_delete_active by assumption. reflexivity.
  - rewrite undelete_inactive by assumption. reflexivity.
  - rewrite undelete_inactive by assumption. reflexivity.
  - unfold and_then. destruct (is_active self) eqn:E.
    + rewrite soft_delete_active by assumption. reflexivity.
    + rewrite soft_delete_inactive by assumption.
      rewrite undelete_inactive by assumption. reflexivity.
  - unfold and_then. destruct (is_active self) eqn:E.
    + rewrite soft_delete_active by assumption. reflexivity.
    + rewrite soft_delete_inactive by assumption.
      now rewrite soft_delete_inactive.
  - unfold and_then. destruct (is_active self) eqn:E.
    + rewrite undelete_active by assumption. now rewrite undelete_active.
    + rewrite undelete_inactive by assumption. reflexivity.
  - intros self' st' H. destruct (is_active self) eqn:E.
    + rewrite soft_delete_active in H by assumption.
      injection H as <- <-. reflexivity.
    + rewrite soft_delete_inactive in H by assumption.
      injection H as <- <-. now apply soft_delete_inactive.
  - intros self' st' H. destruct (is_active self) eqn:E.
    + rewrite undelete_active in H by assumption.
      injection H as <- <-. now apply undelete_active.
    + rewrite undelete_inactive in H by assumption.
      injection H as <- <-. reflexivity.
Qed.

Example soft_delete_twice_writes_once :
  let self := mkBaseModel 10 10 true (VDict []) in
  let st := mkStorage 42 [] in
  and_then soft_delete soft_delete self st =
  (mkBaseModel 42 42 false (VDict []), mkStorage 42 [mkBaseModel 42 42 false (VDict [])]).
Proof. reflexivity. Qed.

Lemma soft_delete_undelete_toggle_witness :
  is_active (fst (soft_delete (mkBaseModel 10 10 true (VDict [])) (mkStorage 42 []))) = false /\
  written (snd (soft_delete (mkBaseModel 10 10 true (VDict [])) (mkStorage 42 []))) =
    ([] ++ [fst (soft_delete (mkBaseModel 10 10 true (VDict [])) (mkStorage 42 []))])%list.
Proof.
  apply (proj1 (soft_delete_undelete_toggle
                  (mkBaseModel 10 10 true (VDict [])) (mkStorage 42 []))).
  reflexivity.
Defined.

(** ** Version lineage *)




Example clean_self_parent :
  clean (mkResourceVersionModel (Some "v1") (mkBaseModel 1 1 true VNone)
           "1.0" "src1" "source" false None (Some Itself))
  = raise (ValidationError "version cannot be its own parent").
Proof. reflexivity. Qed.

Example clean_unsaved_self_parent :
  clean (mkResourceVersionModel None (mkBaseModel 0 0 true VNone)
           "1.0" "src1" "source" false None (Some Itself))
  = raise (ValidationError "version cannot be its own parent").
Proof. reflexivity. Qed.

Example clean_copy_of_same_row :
  clean (mkResourceVersionModel (Some "v1") (mkBaseModel 1 1 true VNone)
           "1.0" "src1" "source" false None (Some (Another (Some "v1"))))
  = raise (ValidationError "version cannot be its own parent").
Proof. reflexivity. Qed.

Example clean_other_parent :
  clean (mkResourceVersionModel (Some "v2") (mkBaseModel 2 2 true VNone)
           "1.1" "src1" "source" false
           (Some (Another (Some "v1"))) (Some (Another (Some "v1"))))
  = ret tt.
Proof. reflexivity. Qed.

Example clean_unsaved_with_saved_parent :
  clean (mkResourceVersionModel None (mkBaseModel 0 0 true VNone)
           "1.1" "src1" "source" false None (Some (Another (Some "v1"))))
  = ret tt.
Proof. reflexivity. Qed.

(** *** The latest version *)



Lemma filter_active_versions_In objects oid v :
  In v (filter_active_versions objects oid) <->
  In v objects /\ is_active_version_of oid v.
Proof.
  unfold filter_active_versions, is_active_version_of.
  rewrite filter_In, andb_true_iff, bool_decide_eq_true. tauto.
Qed.

Lemma insert_newest_first_In v l x :
  In x (insert_newest_first v l) <-> x = v \/ In x l.
Proof.
  induction l as [|w l IH]; simpl.
  - intuition.
  - destruct (created_at (base w) <=? created_at (base v))%Z; simpl.
    + intuition.
    + rewrite IH. intuition.
Qed.

Lemma order_by_created_at_desc_In l x :
  In x (order_by_created_at_desc l) <-> In x l.
Proof.
  induction l as [|v l IH]; simpl; [tauto|].
  rewrite insert_newest_first_In, IH. intuition.
Qed.


Lemma insert_newest_first_head v l :
  newest_first_head l -> newest_first_head (insert_newest_first v l).
Proof.
  destruct l as [|w l]; simpl.
  - intros _ x [<- | []]. apply Z.le_refl.
  - intros Hhead. unfold created in *.
    destruct (created_at (base w) <=? created_at (base v))%Z eqn:E; simpl.
    + apply Z.leb_le in E.
      intros x [<- | Hx]; unfold created; [lia|]. specialize (Hhead x Hx). lia.
    + apply Z.leb_gt in E.
      intros x [<- | Hx]; unfold created; [lia|].
      apply insert_newest_first_In in Hx as [-> | Hx]; [lia|].
      apply Hhead. now right.
Qed.

Lemma order_by_created_at_desc_head l :
  newest_first_head (order_by_created_at_desc l).
Proof.
  induction l as [|v l IH]; simpl; [exact I|].
  now apply insert_newest_first_head.
Qed.

Lemma order_by_created_at_desc_nil l :
  order_by_created_at_desc l = [] -> l = [].
Proof.
  intros H. destruct l as [|v l]; [reflexivity|].
  assert (Hin : In v (order_by_created_at_desc (v :: l))).
  { apply order_by_created_at_desc_In. now left. }
  rewrite H in Hin. destruct Hin.
Qed.

Lemma get_latest_version_of_Some objects oid v :
  get_latest_version_of objects oid = Some v ->
  In v objects /\ is_active_version_of oid v /\
  forall w, In w objects -> is_active_version_of oid w ->
            (created w <= created v)%Z.
Proof.
  unfold get_latest_version_of. intros H.
  pose proof (order_by_created_at_desc_head (filter_active_versions objects oid)) as Hhead.
  pose proof (order_by_created_at_desc_In (filter_active_versions objects oid)) as Hin.
  destruct (order_by_created_at_desc (filter_active_versions objects oid))
    as [|v' rest]; [discriminate|].
  injection H as ->.
  assert (Hv : In v objects /\ is_active_version_of oid v).
  { apply filter_active_versions_In, Hin. now left. }
  destruct Hv as [Hv1 Hv2]. repeat split; try assumption; try apply Hv2.
  intros w Hw Hact. apply Hhead, Hin, filter_active_versions_In. now split.
Qed.

Lemma get_latest_version_of_None objects oid :
  get_latest_version_of objects oid = None <->
  forall w, In w objects -> ~ is_active_version_of oid w.
Proof.
  unfold get_latest_version_of. split.
  - intros H w Hw Hact.
    destruct (order_by_created_at_desc (filter_active_versions objects oid))
      as [|v rest] eqn:E; [|discriminate].
    apply order_by_created_at_desc_nil in E.
    assert (Hin : In w (filter_active_versions objects oid)).
    { apply filter_active_versions_In. now split. }
    rewrite E in Hin. destruct Hin.
  - intros H.
    destruct (order_by_created_at_desc (filter_active_versions objects oid))
      as [|v rest] eqn:E; [reflexivity|]. exfalso.
    assert (Hin : In v (filter_active_versions objects oid)).
    { apply order_by_created_at_desc_In. rewrite E. now left. }
    apply filter_active_versions_In in Hin as [Hv Hact]. exact (H v Hv Hact).
Qed.



Example latest_of_three :
  get_latest_version_of
    [version_at "v2" 20 true; version_at "v3" 30 true; version_at "v1" 10 true] "src1"
  = Some (version_at "v3" 30 true).
Proof. reflexivity. Qed.

Example latest_skips_inactive :
  get_latest_version_of
    [version_at "v1" 10 true; version_at "v2" 20 true; version_at "v3" 30 false] "src1"
  = Some (version_at "v2" 20 true).
Proof. reflexivity. Qed.

Example latest_of_none :
  get_latest_version_of [version_at "v1" 10 true] "src2" = None.
Proof. reflexivity. Qed.


(** ** Token provisioning *)

Lemma Token_objects_create_reachable u t :
  reachable t = true ->
  Token_objects_create u t =
  ret {| tokens := tokens t ++ [ {| key := next_key t; user := u |} ];
         next_key := N.succ (next_key t);
         reachable := true |}.
Proof. intros H. unfold Token_objects_create. now rewrite H. Qed.

(** C7: on a creating save the receiver is the create call itself, so it
    adds exactly one token, owned by the saved user, and an exception of
    the create call is the receiver's exception; on any other save it
    leaves the tokens alone. *)
Theorem create_auth_token_on_creation
  (sender : string) (instance : User) (t : TokenTable) :
  create_auth_token sender instance true t = Token_objects_create instance t /\
  (reachable t = true ->
     exists t' tok, create_auth_token sender instance true t = ret t' /\
       user tok = instance /\ tokens t' = (tokens t ++ [tok])%list) /\
  (forall e, Token_objects_create instance t = raise e ->
     create_auth_token sender instance true t = raise e) /\
  create_auth_token sender instance false t = ret t.
Proof.
  repeat apply conj.
  - reflexivity.
  - intros H. simpl. rewrite Token_objects_create_reachable by assumption.
    eexists. exists {| key := next_key t; user := instance |}.
    split; [reflexivity|]. split; reflexivity.
  - intros e H. exact H.
  - reflexivity.
Qed.

Example create_auth_token_new_user :
  create_auth_token "User" (mkUser 7 "ana") true (mkTokenTable [] 0 true)
  = ret (mkTokenTable [mkToken 0 (mkUser 7 "ana")] 1 true).
Proof. reflexivity. Qed.

Example create_auth_token_backend_down :
  create_auth_token "User" (mkUser 7 "ana") true (mkTokenTable [] 0 false)
  = raise (DatabaseError "token table unavailable").
Proof. reflexivity. Qed.

Lemma create_auth_token_on_creation_witness :
  exists t' tok,
    create_auth_token "User" (mkUser 7 "ana") true (mkTokenTable [] 0 true) = ret t' /\
    user tok = mkUser 7 "ana" /\ tokens t' = ([] ++ [tok])%list.
Proof.
  apply (proj1 (proj2 (create_auth_token_on_creation
                         "User" (mkUser 7 "ana") (mkTokenTable [] 0 true)))).
  reflexivity.
Defined.

End ModelsFacts.

(** ** Organization serializers *)

Module SerializersFacts.
Import Py Serializers Samples.

Lemma mnemonic_exists_true rows m :
  mnemonic_exists rows m = true <-> exists o, In o rows /\ mnemonic o = m.
Proof.
  unfold mnemonic_exists. rewrite existsb_exists.
  split; intros (o & Ho & H); exists o; split; try assumption.
  - now apply bool_decide_eq_true in H.
  - now apply bool_decide_eq_true.
Qed.

Lemma mnemonic_exists_false rows m :
  mnemonic_exists rows m = false <-> forall o, In o rows -> mnemonic o <> m.
Proof.
  rewrite <- not_true_iff_false, mnemonic_exists_true. split.
  - intros H o Ho Hm. apply H. eauto.
  - intros H (o & Ho & Hm). exact (H o Ho Hm).
Qed.

Lemma dict_get_absent (d : gmap string value) key default :
  d !! key = None -> dict_get d key default = default.
Proof. intros H. unfold dict_get. now rewrite H. Qed.

Lemma dict_get_present (d : gmap string value) key default v :
  d !! key = Some v -> dict_get d key default = v.
Proof. intros H. unfold dict_get. now rewrite H. Qed.

Section CreateFacts.

Variables default_company default_website : value.

Lemma create_restore_object_taken attrs instance w :
  mnemonic_exists (objects w) (dict_get attrs "mnemonic" VNone) = true ->
  create_restore_object default_company default_website attrs instance w =
  (None,
   {| _errors := <["mnemonic" := already_exists (dict_get attrs "mnemonic" VNone)]>
                   (_errors w);
      objects := objects w |}).
Proof. intros H. unfold create_restore_object. now rewrite H. Qed.

Lemma create_restore_object_free attrs instance w :
  mnemonic_exists (objects w) (dict_get attrs "mnemonic" VNone) = false ->
  create_restore_object default_company default_website attrs instance w =
  (Some {| uuid := None;
           is_active := true;
           mnemonic := dict_get attrs "mnemonic" VNone;
           name := dict_get attrs "name" VNone;
           company := dict_get attrs "company" VNone;
           website := dict_get attrs "website" VNone;
           extras := dict_get attrs "extras" VNone |},
   w).
Proof. intros H. unfold create_restore_object. now rewrite H. Qed.

(** C1: when some stored organization already has the requested mnemonic,
    [restore_object] of the create serializer returns [None], files its
    message under the [mnemonic] key of [_errors] and leaves the stored
    organizations as they were; when none has it, the result is a new
    organization built from the supplied attributes, and nothing else
    changes. *)
Theorem create_restore_object_checks_mnemonic
  (attrs : gmap string value) (instance : option Organization) (w : World) :
  ((exists o, In o (objects w) /\ mnemonic o = dict_get attrs "mnemonic" VNone) ->
     fst (create_restore_object default_company default_website attrs instance w) = None /\
     objects (snd (create_restore_object default_company default_website attrs instance w)) = objects w /\
     _errors (snd (create_restore_object default_company default_website attrs instance w)) !! "mnemonic" =
       Some (already_exists (dict_get attrs "mnemonic" VNone)) /\
     forall field, field <> "mnemonic" ->
       _errors (snd (create_restore_object default_company default_website attrs instance w)) !! field = _errors w !! field) /\
  ((forall o, In o (objects w) -> mnemonic o <> dict_get attrs "mnemonic" VNone) ->
     exists o, create_restore_object default_company default_website attrs instance w = (Some o, w) /\
       uuid o = None /\
       mnemonic o = dict_get attrs "mnemonic" VNone /\
       name o = dict_get attrs "name" VNone /\
       company o = dict_get attrs "company" VNone /\
       website o = dict_get attrs "website" VNone /\
       extras o = dict_get attrs "extras" VNone).
Proof.
  split.
  - intros H. apply mnemonic_exists_true in H.
    rewrite create_restore_object_taken by assumption. simpl.
    repeat split.
    + apply lookup_insert_eq.
    + intros field Hne. now apply lookup_insert_ne.
  - intros H. apply mnemonic_exists_false in H.
    rewrite create_restore_object_free by assumption.
    eexists. split; [reflexivity|]. repeat split.
Qed.

(** C9: on a successful create, each of [company], [website] and [extras]
    that the attributes do not mention is [None] on the new organization,
    whatever the model class would have put there. *)
Theorem create_restore_object_absent_is_None
  (attrs : gmap string value) (instance : option Organization) (w : World) :
  mnemonic_exists (objects w) (dict_get attrs "mnemonic" VNone) = false ->
  exists o, create_restore_object default_company default_website attrs instance w = (Some o, w) /\
    (attrs !! "company" = None -> company o = VNone) /\
    (attrs !! "website" = None -> website o = VNone) /\
    (attrs !! "extras" = None -> extras o = VNone).
Proof.
  intros H. rewrite create_restore_object_free by assumption.
  eexists. split; [reflexivity|]. simpl.
  repeat split; intros Habs; now apply dict_get_absent.
Qed.

End CreateFacts.



Lemma create_restore_object_absent_is_None_witness :
  exists o,
    create_restore_object (VStr "ACME") (VStr "http://example.org")
      ocl_attrs None (mkWorld ∅ [who]) = (Some o, mkWorld ∅ [who]) /\
    (ocl_attrs !! "company" = None -> company o = VNone) /\
    (ocl_attrs !! "website" = None -> website o = VNone) /\
    (ocl_attrs !! "extras" = None -> extras o = VNone).
Proof.
  apply (create_restore_object_absent_is_None
           (VStr "ACME") (VStr "http://example.org") ocl_attrs None (mkWorld ∅ [who])).
  vm_compute. reflexivity.
Defined.

Lemma create_restore_object_checks_mnemonic_witness :
  fst (create_restore_object VNone VNone {["mnemonic" := VStr "WHO"]} None
         (mkWorld ∅ [who])) = None /\
  objects (snd (create_restore_object VNone VNone {["mnemonic" := VStr "WHO"]} None
                  (mkWorld ∅ [who]))) = [who] /\
  _errors (snd (create_restore_object VNone VNone {["mnemonic" := VStr "WHO"]} None
                  (mkWorld ∅ [who]))) !! "mnemonic" =
    Some (already_exists (dict_get {["mnemonic" := VStr "WHO"]} "mnemonic" VNone)) /\
  forall field, field <> "mnemonic" ->
    _errors (snd (create_restore_object VNone VNone {["mnemonic" := VStr "WHO"]} None
                    (mkWorld ∅ [who]))) !! field = (∅ : gmap string string) !! field.
Proof.
  apply (proj1 (create_restore_object_checks_mnemonic VNone VNone
                  {["mnemonic" := VStr "WHO"]} None (mkWorld ∅ [who]))).
  exists who. split; [left; reflexivity | vm_compute; reflexivity].
Defined.

Example create_duplicate_rejected :
  create_restore_object VNone VNone
    {["mnemonic" := VStr "WHO"]} None (mkWorld ∅ [who])
  = (None,
     mkWorld {["mnemonic" := "Organization with mnemonic WHO already exists."]} [who]).
Proof. vm_compute. reflexivity. Qed.

Example create_fresh_accepted :
  create_restore_object (VStr "ACME") (VStr "http://example.org")
    ocl_attrs None (mkWorld ∅ [who])
  = (Some (mkOrganization None true (VStr "OCL") (VStr "Open Concept Lab")
             VNone VNone VNone),
     mkWorld ∅ [who]).
Proof. vm_compute. reflexivity. Qed.

(** C6: an update that supplies only [name] returns the instance with that
    name and with [company], [website] and [extras] as before; and for any
    attributes, each of the four fields that is absent keeps its value while
    each that is present takes the supplied one. *)
Theorem detail_restore_object_merges (instance : Organization) :
  (forall v, detail_restore_object {["name" := v]} instance = set_name v instance) /\
  (forall attrs : gmap string value,
     (attrs !! "name" = None ->
        name (detail_restore_object attrs instance) = name instance) /\
     (attrs !! "company" = None ->
        company (detail_restore_object attrs instance) = company instance) /\
     (attrs !! "website" = None ->
        website (detail_restore_object attrs instance) = website instance) /\
     (attrs !! "extras" = None ->
        extras (detail_restore_object attrs instance) = extras instance) /\
     (forall v, attrs !! "name" = Some v ->
        name (detail_restore_object attrs instance) = v) /\
     (forall v, attrs !! "company" = Some v ->
        company (detail_restore_object attrs instance) = v) /\
     (forall v, attrs !! "website" = Some v ->
        website (detail_restore_object attrs instance) = v) /\
     (forall v, attrs !! "extras" = Some v ->
        extras (detail_restore_object attrs instance) = v)).
Proof.
  split.
  - intros v. unfold detail_restore_object. simpl.
    rewrite (dict_get_present _ "name" _ v) by apply lookup_singleton_eq.
    rewrite !dict_get_absent by (now apply lookup_singleton_ne).
    destruct instance. reflexivity.
  - intros attrs. unfold detail_restore_object. simpl.
    repeat split; intros; first [now apply dict_get_absent | now apply dict_get_present].
Qed.

Example detail_update_name_only :
  detail_restore_object {["name" := VStr "W.H.O."]} who =
  mkOrganization (Some "5f1") true (VStr "WHO") (VStr "W.H.O.") (VStr "WHO") VNone (VDict []).
Proof. vm_compute. reflexivity. Qed.

Lemma detail_restore_object_merges_witness :
  detail_restore_object {["name" := VStr "W.H.O."]} who = set_name (VStr "W.H.O.") who.
Proof. apply (proj1 (detail_restore_object_merges who)). Defined.

(** C10: whatever the attributes of an update are, [restore_object] of the
    detail serializer returns an instance with the mnemonic and the uuid it
    was given, since it assigns [name], [company], [website] and [extras]
    only. *)
Theorem detail_restore_object_keeps_identity
  (attrs : gmap string value) (instance : Organization) :
  mnemonic (detail_restore_object attrs instance) = mnemonic instance /\
  uuid (detail_restore_object attrs instance) = uuid instance /\
  detail_restore_object attrs instance =
    {| uuid := uuid instance;
       is_active := is_active instance;
       mnemonic := mnemonic instance;
       name := dict_get attrs "name" (name instance);
       company := dict_get attrs "company" (company instance);
       website := dict_get attrs "website" (website instance);
       extras := dict_get attrs "extras" (extras instance) |}.
Proof. repeat split. Qed.

Example detail_update_ignores_mnemonic :
  mnemonic (detail_restore_object
              (<["mnemonic" := VStr "EVIL"]> {["name" := VStr "x"]}) who) = VStr "WHO".
Proof. reflexivity. Qed.

End SerializersFacts.

(** ** Mnemonic validation, continued *)

Module ValidationFacts.
Import Py Models.

Lemma RegexValidator_namespace_rejects_witness :
  RegexValidator NAMESPACE_REGEX "my org" =
  raise (ValidationError "Enter a valid value.").
Proof.
  apply (ReFacts.RegexValidator_namespace_rejects "my org"
           (list_ascii_of_string "my") " "%char (list_ascii_of_string "org")).
  - reflexivity.
  - reflexivity.
  - left. discriminate.
Defined.

(** A mnemonic the validators accept is not empty and has no slash, no
    space, no question mark, no percent sign and no hash sign in it. *)
Theorem accepted_mnemonic_has_no_delimiter (s : string) :
  run_validators mnemonic_validators s = ret tt ->
  s <> "" /\
  forall c, In c ["/"; " "; "?"; "%"; "#"]%char -> ~ In c (Re.chars s).
Proof.
  intros H. simpl in H. unfold bind in H.
  destruct (RegexValidator NAMESPACE_REGEX s) as [e|[]] eqn:E; [discriminate|].
  unfold RegexValidator in E.
  destruct (Re.search NAMESPACE_REGEX s) eqn:Es; [|discriminate].
  rewrite ReFacts.search_namespace in Es.
  apply ReFacts.set_plus_eol_true in Es as (w & Hw & Hall & Hs).
  assert (Hin : forall x, In x w -> Re.in_set namespace_set x = true).
  { now apply forallb_forall. }
  split.
  - intros ->. unfold Re.chars in Hs. simpl in Hs.
    destruct Hs as [Hs | Hs]; [congruence|]. destruct w; discriminate.
  - intros c Hc Hcs.
    assert (Hout : Re.in_set namespace_set c = false /\ c <> Re.newline).
    { simpl in Hc.
      repeat (destruct Hc as [<- | Hc]; [split; [reflexivity | discriminate]|]).
      destruct Hc. }
    destruct Hout as [Hout Hnl].
    assert (Hcw : In c w).
    { destruct Hs as [Hs | Hs]; rewrite Hs in Hcs; [assumption|].
      apply in_app_or in Hcs as [Hcs | [Hcs | []]]; [assumption | congruence]. }
    rewrite (Hin c Hcw) in Hout. discriminate.
Qed.

Lemma accepted_mnemonic_has_no_delimiter_witness :
  "CIEL-1.0" <> "" /\
  forall c, In c ["/"; " "; "?"; "%"; "#"]%char -> ~ In c (Re.chars "CIEL-1.0").
Proof. apply accepted_mnemonic_has_no_delimiter. reflexivity. Defined.

End ValidationFacts.

(** ** Default view names *)

Module ViewNamesFacts.
Import ViewNames.

Lemma percent_format_default_view_name (kwargs : gmap string string) :
  percent_format (list_ascii_of_string _default_view_name) kwargs =
  match kwargs !! "model_name" with
  | Some v => Formatted (v ++ "-detail")
  | None => KeyError "model_name"
  end.
Proof.
  lazy -[lookup]. destruct (kwargs !! "model_name") as [v|]; reflexivity.
Qed.

Lemma lower_char_not_upper c : is_upper (lower_char c) = false.
Proof. destruct c as [[] [] [] [] [] [] [] []]; reflexivity. Qed.

Lemma lower_not_upper s c :
  In c (list_ascii_of_string (lower s)) -> is_upper c = false.
Proof.
  induction s as [|d s IH]; simpl; [tauto|].
  intros [<- | H]; [apply lower_char_not_upper | now apply IH].
Qed.

Lemma lower_char_idempotent c : lower_char (lower_char c) = lower_char c.
Proof. destruct c as [[] [] [] [] [] [] [] []]; reflexivity. Qed.

Lemma lower_idempotent s : lower (lower s) = lower s.
Proof.
  induction s as [|c s IH]; simpl; [reflexivity|].
  now rewrite lower_char_idempotent, IH.
Qed.

Lemma list_ascii_of_string_app s t :
  list_ascii_of_string (s ++ t) =
  (list_ascii_of_string s ++ list_ascii_of_string t)%list.
Proof. induction s as [|c s IH]; simpl; [reflexivity | now rewrite IH]. Qed.

(** For every model class the default view name is the class name in lower
    case followed by [-detail]: formatting never raises, and the application
    label plays no part. *)
Theorem get_default_view_name_value (model_meta : Options) :
  get_default_view_name model_meta =
  Formatted (lower (object_name model_meta) ++ "-detail") /\
  forall label,
    get_default_view_name (mkOptions label (object_name model_meta)) =
    get_default_view_name model_meta.
Proof.
  assert (H : forall m, get_default_view_name m =
                        Formatted (lower (object_name m) ++ "-detail")).
  { intros m. unfold get_default_view_name.
    rewrite percent_format_default_view_name, lookup_insert_eq. reflexivity. }
  split; [apply H|]. intros label. now rewrite !H.
Qed.

(** The default view name has no upper-case letter, and two classes whose
    names differ only in the case of their letters get the same one. *)
Theorem get_default_view_name_case_blind (m1 m2 : Options) :
  (forall text, get_default_view_name m1 = Formatted text ->
     forall c, In c (list_ascii_of_string text) -> is_upper c = false) /\
  (lower (object_name m1) = lower (object_name m2) ->
     get_default_view_name m1 = get_default_view_name m2) /\
  get_default_view_name (mkOptions (app_label m1) (lower (object_name m1))) =
    get_default_view_name m1.
Proof.
  assert (H : forall m, get_default_view_name m =
                        Formatted (lower (object_name m) ++ "-detail")).
  { intros m. unfold get_default_view_name.
    rewrite percent_format_default_view_name, lookup_insert_eq. reflexivity. }
  repeat split.
  - intros text Ht c Hc. rewrite H in Ht. injection Ht as <-.
    rewrite list_ascii_of_string_app in Hc. apply in_app_or in Hc as [Hc | Hc].
    + now apply (lower_not_upper (object_name m1)).
    + simpl in Hc. repeat (destruct Hc as [<- | Hc]; [reflexivity|]). destruct Hc.
  - intros Hl. now rewrite !H, Hl.
  - rewrite !H. simpl. now rewrite lower_idempotent.
Qed.

Lemma get_default_view_name_case_blind_witness :
  get_default_view_name (mkOptions "orgs" "ORGANIZATION") =
  get_default_view_name (mkOptions "orgs" "Organization").
Proof.
  apply (proj1 (proj2 (get_default_view_name_case_blind
                         (mkOptions "orgs" "ORGANIZATION")
                         (mkOptions "orgs" "Organization")))).
  reflexivity.
Defined.

Example organization_view_name :
  view_name (mkOptions "orgs" "Organization") = Formatted "organization-detail".
Proof. vm_compute. reflexivity. Qed.

Example percent_format_missing_key :
  percent_format (list_ascii_of_string "%(pk)s") ∅ = KeyError "pk".
Proof. vm_compute. reflexivity. Qed.

End ViewNamesFacts.

(** ** Runs of soft deletions and restorations *)

Module RunsFacts.
Import Py Models Runs.

Lemma apply_toggle_cases op self st :
  (apply_toggle op self st = (self, st)) \/
  (exists b, apply_toggle op self st = save (set_is_active b self) st).
Proof.
  destruct op; simpl; [unfold soft_delete | unfold undelete];
    destruct (is_active self); simpl; eauto.
Qed.

Lemma apply_toggle_is_active op self st :
  is_active (fst (apply_toggle op self st)) =
  match op with SoftDelete => false | Undelete => true end.
Proof.
  destruct op; simpl; [unfold soft_delete | unfold undelete];
    destruct (is_active self) eqn:E; simpl; congruence.
Qed.

Lemma run_toggles_snoc ops op self st :
  run_toggles (ops ++ [op])%list self st =
  apply_toggle op (fst (run_toggles ops self st)) (snd (run_toggles ops self st)).
Proof.
  revert self st. induction ops as [|o ops IH]; intros self st; simpl.
  - now destruct (apply_toggle op self st).
  - destruct (apply_toggle o self st) as [self' st']. apply IH.
Qed.

(** What a single call does to the storage: nothing, together with the
    instance, or one more row, which is the instance it returns. *)
Lemma apply_toggle_written op self st :
  apply_toggle op self st = (self, st) \/
  written (snd (apply_toggle op self st)) =
    (written st ++ [fst (apply_toggle op self st)])%list.
Proof.
  destruct op; simpl; [unfold soft_delete | unfold undelete];
    destruct (is_active self); simpl; auto.
Qed.

Lemma apply_toggle_extras op self st :
  extras (fst (apply_toggle op self st)) = extras self.
Proof.
  destruct op; simpl; [unfold soft_delete | unfold undelete];
    destruct (is_active self); reflexivity.
Qed.

Lemma apply_toggle_created_at op self st :
  written st <> [] ->
  created_at (fst (apply_toggle op self st)) = created_at self.
Proof.
  intros Hst. destruct op; simpl; [unfold soft_delete | unfold undelete];
    destruct (is_active self); simpl; try reflexivity;
    destruct (written st); congruence.
Qed.

(** Neither toggle touches [extras]; a call either changes nothing at all,
    or it flips [is_active], stamps [updated_at] with the current time,
    leaves [created_at] alone unless this is the write that inserts the row,
    and appends exactly the instance it returns to what was written. *)
Theorem toggle_frame (op : toggle) (self : BaseModel) (st : Storage) :
  extras (fst (apply_toggle op self st)) = extras self /\
  ((apply_toggle op self st = (self, st)) \/
   (written (snd (apply_toggle op self st)) =
      (written st ++ [fst (apply_toggle op self st)])%list /\
    updated_at (fst (apply_toggle op self st)) = now st /\
    is_active (fst (apply_toggle op self st)) = negb (is_active self) /\
    (written st <> [] ->
       created_at (fst (apply_toggle op self st)) = created_at self) /\
    (written st = [] ->
       created_at (fst (apply_toggle op self st)) = now st))).
Proof.
  split; [apply apply_toggle_extras|].
  destruct op; simpl; [unfold soft_delete | unfold undelete];
    destruct (is_active self) eqn:E; simpl; auto;
    right; repeat split; try reflexivity;
    intros Hst; destruct (written st); congruence.
Qed.

(** After any series of calls that ends with [soft_delete] the instance is
    inactive, and after any series that ends with [undelete] it is active,
    whatever its state was and whatever came before. *)
Theorem run_toggles_last_call_decides
  (ops : list toggle) (op : toggle) (self : BaseModel) (st : Storage) :
  is_active (fst (run_toggles (ops ++ [op])%list self st)) =
  match op with SoftDelete => false | Undelete => true end.
Proof. rewrite run_toggles_snoc. apply apply_toggle_is_active. Qed.

(** A series of calls only appends to what was written: the earlier rows
    stay and at most one row is added per call; [extras] stays as it was,
    and so does [created_at] of an instance that already has a row. *)
Theorem run_toggles_append_only (ops : list toggle) (self : BaseModel) (st : Storage) :
  exists rows,
    written (snd (run_toggles ops self st)) = (written st ++ rows)%list /\
    length rows <= length ops /\
    extras (fst (run_toggles ops self st)) = extras self /\
    (written st <> [] ->
       created_at (fst (run_toggles ops self st)) = created_at self).
Proof.
  revert self st. induction ops as [|op ops IH]; intros self st; simpl.
  - exists []. rewrite app_nil_r. simpl. auto.
  - pose proof (apply_toggle_extras op self st) as He.
    pose proof (apply_toggle_created_at op self st) as Hc.
    destruct (apply_toggle_written op self st) as [Hsame | Hw];
      destruct (apply_toggle op self st) as [self' st'] eqn:E; simpl in *;
      destruct (IH self' st') as (rows & Hrows & Hlen & Hex & Hcr).
    + injection Hsame as -> ->. exists rows. repeat split; auto.
    + exists (self' :: rows). rewrite Hrows, Hw, <- app_assoc. simpl.
      repeat split; try congruence; try lia.
      intros Hst. rewrite Hcr, Hc; try assumption; try reflexivity.
      rewrite Hw. now destruct (written st).
Qed.

Lemma run_toggles_append_only_witness :
  created_at (fst (run_toggles [SoftDelete; Undelete]
                     (mkBaseModel 1 1 true VNone)
                     (mkStorage 5 [mkBaseModel 1 1 true VNone]))) = 1%Z.
Proof.
  destruct (run_toggles_append_only [SoftDelete; Undelete]
              (mkBaseModel 1 1 true VNone)
              (mkStorage 5 [mkBaseModel 1 1 true VNone]))
    as (rows & _ & _ & _ & Hcreated).
  apply Hcreated. discriminate.
Defined.

(** If the instance is what the storage last wrote, it still is after any
    series of calls: the instance in memory and its stored state never
    drift apart. *)
Theorem run_toggles_in_sync (ops : list toggle) (self : BaseModel) (st : Storage) :
  last (written st) = Some self ->
  last (written (snd (run_toggles ops self st))) = Some (fst (run_toggles ops self st)).
Proof.
  revert self st. induction ops as [|op ops IH]; intros self st Hsync; simpl.
  - exact Hsync.
  - destruct (apply_toggle_written op self st) as [Hsame | Hw];
      destruct (apply_toggle op self st) as [self' st'] eqn:E; simpl in *;
      apply IH.
    + injection Hsame as -> ->. exact Hsync.
    + rewrite Hw. apply last_snoc.
Qed.

Lemma run_toggles_in_sync_witness :
  last (written (snd (run_toggles [SoftDelete; SoftDelete; Undelete]
                        (mkBaseModel 1 1 true VNone)
                        (mkStorage 5 [mkBaseModel 1 1 true VNone])))) =
  Some (fst (run_toggles [SoftDelete; SoftDelete; Undelete]
               (mkBaseModel 1 1 true VNone)
               (mkStorage 5 [mkBaseModel 1 1 true VNone]))).
Proof.
  apply (run_toggles_in_sync [SoftDelete; SoftDelete; Undelete]
           (mkBaseModel 1 1 true VNone) (mkStorage 5 [mkBaseModel 1 1 true VNone])).
  reflexivity.
Defined.

Example run_toggles_three :
  run_toggles [SoftDelete; SoftDelete; Undelete]
    (mkBaseModel 1 1 true VNone) (mkStorage 5 [mkBaseModel 1 1 true VNone]) =
  (mkBaseModel 1 5 true VNone,
   mkStorage 5 [mkBaseModel 1 1 true VNone; mkBaseModel 1 5 false VNone;
                mkBaseModel 1 5 true VNone]).
Proof. reflexivity. Qed.

(** *** Tokens over a series of saves *)

Lemma post_save_all_tokens saves : forall t,
  reachable t = true ->
  exists t' new,
    post_save_all saves t = ret t' /\
    tokens t' = (tokens t ++ new)%list /\
    map user new = created_users saves /\
    reachable t' = true.
Proof.
  induction saves as [|[u created] saves IH]; intros t Hr; simpl.
  - exists t, []. rewrite app_nil_r. auto.
  - destruct created; simpl.
    + unfold Token_objects_create. rewrite Hr. simpl.
      destruct (IH {| tokens := tokens t ++ [ {| key := next_key t; user := u |} ];
                      next_key := N.succ (next_key t);
                      reachable := true |} eq_refl)
        as (t' & new & Hrun & Htok & Husers & Hreach).
      exists t', ({| key := next_key t; user := u |} :: new).
      repeat split; try assumption.
      * rewrite Htok. simpl. now rewrite <- app_assoc.
      * unfold created_users in *. simpl. now rewrite Husers.
    + destruct (IH t Hr) as (t' & new & Hrun & Htok & Husers & Hreach).
      exists t', new. auto.
Qed.

(** With the token table reachable, a series of user saves ends without an
    exception; the tokens there before are kept as they were, and the ones
    added are one per creating save, for the created users in the order of
    their saves. *)
Theorem post_save_all_one_token_per_creation
  (saves : list (User * bool)) (t : TokenTable) :
  reachable t = true ->
  exists t' new,
    post_save_all saves t = ret t' /\
    tokens t' = (tokens t ++ new)%list /\
    map user new = created_users saves /\
    length new = length (List.filter snd saves).
Proof.
  intros Hr. destruct (post_save_all_tokens saves t Hr)
    as (t' & new & Hrun & Htok & Husers & _).
  exists t', new. repeat split; try assumption.
  rewrite <- (length_map user), Husers. unfold created_users. apply length_map.
Qed.

Lemma post_save_all_one_token_per_creation_witness :
  exists t' new,
    post_save_all [(mkUser 1 "ana", true); (mkUser 1 "ana", false); (mkUser 2 "bo", true)]
      (mkTokenTable [mkToken 0 (mkUser 9 "root")] 1 true) = ret t' /\
    tokens t' = ([mkToken 0 (mkUser 9 "root")] ++ new)%list /\
    map user new =
      created_users [(mkUser 1 "ana", true); (mkUser 1 "ana", false); (mkUser 2 "bo", true)] /\
    length new =
      length (List.filter snd
                [(mkUser 1 "ana", true); (mkUser 1 "ana", false); (mkUser 2 "bo", true)]).
Proof.
  apply (post_save_all_one_token_per_creation
           [(mkUser 1 "ana", true); (mkUser 1 "ana", false); (mkUser 2 "bo", true)]
           (mkTokenTable [mkToken 0 (mkUser 9 "root")] 1 true)).
  reflexivity.
Defined.

(** Saves that create nothing leave the token table alone even when it
    cannot be reached; with the table unreachable, the first creating save
    raises and the series stops there. *)
Theorem post_save_all_updates_only (saves : list (User * bool)) (t : TokenTable) :
  (created_users saves = [] -> post_save_all saves t = ret t) /\
  (reachable t = false -> created_users saves <> [] ->
     post_save_all saves t = raise (DatabaseError "token table unavailable")).
Proof.
  split.
  - induction saves as [|[u created] saves IH]; simpl; [reflexivity|].
    unfold created_users. destruct created; simpl; [discriminate|].
    intros H. now apply IH.
  - intros Hr. induction saves as [|[u created] saves IH]; simpl.
    + intros H. now contradiction H.
    + destruct created; simpl.
      * intros _. unfold Token_objects_create. now rewrite Hr.
      * intros H. now apply IH.
Qed.

End RunsFacts.

(** ** Version lineage, continued *)

Module VersionsFacts.
Import Py Models Samples.

(** [clean] looks at one link only: two versions that name each other as
    parent, a cycle of length two, both pass it. *)
Theorem clean_accepts_two_cycle (v1 v2 : ResourceVersionModel) (a b : string) :
  a <> b ->
  id v1 = Some a -> parent_version v1 = Some (Another (Some b)) ->
  id v2 = Some b -> parent_version v2 = Some (Another (Some a)) ->
  clean v1 = ret tt /\ clean v2 = ret tt.
Proof.
  intros Hne H1 P1 H2 P2. unfold clean, instance_eq.
  rewrite H1, P1, H2, P2. simpl.
  rewrite !bool_decide_eq_false_2 by congruence. auto.
Qed.

Lemma clean_accepts_two_cycle_witness :
  clean (mkResourceVersionModel (Some "v1") (mkBaseModel 1 1 true VNone)
           "1.0" "src1" "source" false None (Some (Another (Some "v2")))) = ret tt /\
  clean (mkResourceVersionModel (Some "v2") (mkBaseModel 2 2 true VNone)
           "2.0" "src1" "source" false None (Some (Another (Some "v1")))) = ret tt.
Proof.
  apply (clean_accepts_two_cycle _ _ "v1" "v2");
    [discriminate | reflexivity | reflexivity | reflexivity | reflexivity].
Defined.

(** [clean] does not look at [previous_version] or any other field: its
    outcome is the same for two instances with the same primary key and the
    same [parent_version], so a version that is its own previous version
    passes when its parent allows it. *)
Theorem clean_reads_parent_only (v1 v2 : ResourceVersionModel) :
  id v1 = id v2 -> parent_version v1 = parent_version v2 ->
  clean v1 = clean v2.
Proof.
  intros Hid Hp. unfold clean, instance_eq. rewrite Hp.
  destruct (parent_version v2) as [[|pk]|]; simpl; now rewrite ?Hid.
Qed.

Lemma clean_reads_parent_only_witness :
  clean (mkResourceVersionModel (Some "v1") (mkBaseModel 1 1 true VNone)
           "1.0" "src1" "source" false (Some Itself) None) =
  clean (mkResourceVersionModel (Some "v1") (mkBaseModel 1 1 true VNone)
           "1.0" "src1" "source" false None None).
Proof. apply clean_reads_parent_only; reflexivity. Defined.

Example clean_own_previous_version :
  clean (mkResourceVersionModel None (mkBaseModel 0 0 true VNone)
           "1.0" "src1" "source" false (Some Itself) None) = ret tt.
Proof. reflexivity. Qed.

(** *** Rows that do not count *)

Lemma filter_active_versions_app l1 l2 oid :
  filter_active_versions (l1 ++ l2)%list oid =
  (filter_active_versions l1 oid ++ filter_active_versions l2 oid)%list.
Proof. unfold filter_active_versions. apply List.filter_app. Qed.

(** A row of another resource, or an inactive row, makes no difference to
    the latest version wherever it stands in the table; so deactivating a
    version has the same effect on the answer as removing its row. *)
Theorem get_latest_version_of_ignores_row
  (l1 l2 : list ResourceVersionModel) (x : ResourceVersionModel) (oid : string) :
  versioned_object_id x <> oid \/ is_active (base x) = false ->
  get_latest_version_of (l1 ++ x :: l2)%list oid =
  get_latest_version_of (l1 ++ l2)%list oid.
Proof.
  intros Hx. unfold get_latest_version_of.
  rewrite !filter_active_versions_app.
  assert (Hskip : filter_active_versions (x :: l2) oid = filter_active_versions l2 oid).
  { unfold filter_active_versions. simpl.
    destruct Hx as [Hne | Hin].
    - now rewrite bool_decide_eq_false_2.
    - now rewrite Hin, andb_false_r. }
  now rewrite Hskip.
Qed.

Lemma get_latest_version_of_ignores_row_witness :
  get_latest_version_of
    ([version_at "v1" 10 true; version_at "v2" 20 true] ++
     version_at "v3" 30 false :: [])%list "src1" =
  get_latest_version_of
    ([version_at "v1" 10 true; version_at "v2" 20 true] ++ [])%list "src1".
Proof.
  apply (get_latest_version_of_ignores_row
           [version_at "v1" 10 true; version_at "v2" 20 true] []
           (version_at "v3" 30 false) "src1").
  right. reflexivity.
Defined.

(** When the active versions of a resource have pairwise different creation
    times, the latest version does not depend on the order of the rows in
    the table. *)
Theorem get_latest_version_of_order_free
  (l l' : list ResourceVersionModel) (oid : string) :
  (forall v, In v l <-> In v l') ->
  (forall v w, In v l -> In w l ->
     is_active_version_of oid v -> is_active_version_of oid w ->
     created v = created w -> v = w) ->
  get_latest_version_of l oid = get_latest_version_of l' oid.
Proof.
  intros Hsame Hdistinct.
  destruct (get_latest_version_of l oid) as [v|] eqn:E;
    destruct (get_latest_version_of l' oid) as [u|] eqn:E'; try reflexivity.
  - apply ModelsFacts.get_latest_version_of_Some in E as (Hv & Hva & Hvmax).
    apply ModelsFacts.get_latest_version_of_Some in E' as (Hu & Hua & Humax).
    apply Hsame in Hu.
    assert (created v = created u).
    { apply Z.le_antisymm.
      - apply Humax; [now apply Hsame | assumption].
      - now apply Hvmax. }
    f_equal. symmetry. now apply Hdistinct.
  - exfalso. apply ModelsFacts.get_latest_version_of_Some in E as (Hv & Hva & _).
    rewrite ModelsFacts.get_latest_version_of_None in E'.
    apply (E' v); [now apply Hsame | assumption].
  - exfalso. apply ModelsFacts.get_latest_version_of_Some in E' as (Hu & Hua & _).
    rewrite ModelsFacts.get_latest_version_of_None in E.
    apply (E u); [now apply Hsame | assumption].
Qed.

Lemma get_latest_version_of_order_free_witness :
  get_latest_version_of [version_at "v1" 10 true; version_at "v2" 20 true] "src1" =
  get_latest_version_of [version_at "v2" 20 true; version_at "v1" 10 true] "src1".
Proof.
  apply get_latest_version_of_order_free.
  - intros v. simpl. tauto.
  - intros v w [<- | [<- | []]] [<- | [<- | []]] _ _ H;
      first [reflexivity | discriminate H].
Defined.

End VersionsFacts.

(** ** Organization serializers, continued *)

Module OrganizationFacts.
Import Py Serializers Samples.

Lemma dict_get_union (a2 a1 : gmap string value) key default :
  dict_get (a2 ∪ a1) key default = dict_get a2 key (dict_get a1 key default).
Proof.
  unfold dict_get. rewrite lookup_union.
  destruct (a2 !! key), (a1 !! key); reflexivity.
Qed.

Lemma detail_restore_object_unfold attrs instance :
  detail_restore_object attrs instance =
  {| uuid := uuid instance;
     is_active := is_active instance;
     mnemonic := mnemonic instance;
     name := dict_get attrs "name" (name instance);
     company := dict_get attrs "company" (company instance);
     website := dict_get attrs "website" (website instance);
     extras := dict_get attrs "extras" (extras instance) |}.
Proof. reflexivity. Qed.

(** An update with no attributes returns the instance as it is, and
    applying the same attributes a second time changes nothing more. *)
Theorem detail_restore_object_idempotent
  (attrs : gmap string value) (instance : Organization) :
  detail_restore_object ∅ instance = instance /\
  detail_restore_object attrs (detail_restore_object attrs instance) =
    detail_restore_object attrs instance.
Proof.
  split.
  - rewrite detail_restore_object_unfold. unfold dict_get.
    rewrite !lookup_empty. now destruct instance.
  - rewrite !detail_restore_object_unfold. simpl. unfold dict_get.
    destruct (attrs !! "name"), (attrs !! "company"),
      (attrs !! "website"), (attrs !! "extras"); reflexivity.
Qed.

(** Two updates in a row amount to one update with the two attribute
    dictionaries merged, the later one winning where both name a field. *)
Theorem detail_restore_object_compose
  (first second : gmap string value) (instance : Organization) :
  detail_restore_object second (detail_restore_object first instance) =
  detail_restore_object (second ∪ first) instance.
Proof.
  rewrite !detail_restore_object_unfold. simpl.
  now rewrite !dict_get_union.
Qed.

(** The update reads the keys [name], [company], [website] and [extras] and
    no other: attribute dictionaries that agree on these four give the same
    result, whatever else they hold. *)
Theorem detail_restore_object_reads_four_keys
  (attrs attrs' : gmap string value) (instance : Organization) :
  (forall key, In key ["name"; "company"; "website"; "extras"] ->
     attrs !! key = attrs' !! key) ->
  detail_restore_object attrs instance = detail_restore_object attrs' instance.
Proof.
  intros H. rewrite !detail_restore_object_unfold. unfold dict_get.
  rewrite (H "name"), (H "company"), (H "website"), (H "extras");
    simpl; auto 10.
Qed.

Lemma detail_restore_object_reads_four_keys_witness :
  detail_restore_object
    (<["is_active" := VStr "false"]> (<["mnemonic" := VStr "EVIL"]> {["name" := VStr "x"]}))
    who =
  detail_restore_object {["name" := VStr "x"]} who.
Proof.
  apply detail_restore_object_reads_four_keys.
  intros key [<- | [<- | [<- | [<- | []]]]]; vm_compute; reflexivity.
Defined.

Section CreateMore.

Variables default_company default_website : value.

(** Whatever [restore_object] of the create serializer returns as a new
    organization has a mnemonic that no stored organization has, is not yet
    saved, and leaves errors and rows untouched; so storing it keeps the
    mnemonics of the stored organizations pairwise different. *)
Theorem create_restore_object_fresh_mnemonic
  (attrs : gmap string value) (instance : option Organization) (w w' : World)
  (o : Organization) :
  create_restore_object default_company default_website attrs instance w = (Some o, w') ->
  w' = w /\ uuid o = None /\
  (forall r, In r (objects w) -> mnemonic r <> mnemonic o) /\
  (NoDup (map mnemonic (objects w)) ->
   NoDup (map mnemonic (objects w ++ [o])%list)).
Proof.
  unfold create_restore_object.
  destruct (mnemonic_exists (objects w) (dict_get attrs "mnemonic" VNone)) eqn:E;
    [discriminate|].
  intros H. injection H as <- <-. simpl.
  pose proof (proj1 (SerializersFacts.mnemonic_exists_false _ _) E) as Hfresh.
  repeat split; try assumption.
  intros Hnd. rewrite map_app. simpl.
  apply NoDup_app. repeat split.
  - exact Hnd.
  - intros m Hm Hin. apply list_elem_of_In in Hm, Hin.
    apply in_map_iff in Hm as (r & Hr & Hin').
    destruct Hin as [<- | []]. exact (Hfresh r Hin' Hr).
  - apply NoDup_singleton.
Qed.

(** Whether a create request is refused depends on the stored rows only
    through their mnemonics: inactive organizations block their mnemonic as
    active ones do, and no other field of a row matters. *)
Theorem create_restore_object_reads_mnemonics
  (attrs : gmap string value) (instance : option Organization)
  (errs : gmap string string) (rows rows' : list Organization) :
  (forall m, In m (map mnemonic rows) <-> In m (map mnemonic rows')) ->
  fst (create_restore_object default_company default_website attrs instance
         (mkWorld errs rows)) =
  fst (create_restore_object default_company default_website attrs instance
         (mkWorld errs rows')) /\
  _errors (snd (create_restore_object default_company default_website attrs instance
                  (mkWorld errs rows))) =
  _errors (snd (create_restore_object default_company default_website attrs instance
                  (mkWorld errs rows'))).
Proof.
  intros Hsame.
  assert (Hex : mnemonic_exists rows (dict_get attrs "mnemonic" VNone) =
                mnemonic_exists rows' (dict_get attrs "mnemonic" VNone)).
  { apply eq_true_iff_eq. rewrite !SerializersFacts.mnemonic_exists_true.
    split; intros (o & Ho & Hm).
    - assert (Hin : In (mnemonic o) (map mnemonic rows')).
      { apply Hsame. now apply in_map. }
      apply in_map_iff in Hin as (o' & Hm' & Ho'). exists o'. split; congruence.
    - assert (Hin : In (mnemonic o) (map mnemonic rows)).
      { apply Hsame. now apply in_map. }
      apply in_map_iff in Hin as (o' & Hm' & Ho'). exists o'. split; congruence. }
  unfold create_restore_object. simpl. rewrite Hex.
  destruct (mnemonic_exists rows' (dict_get attrs "mnemonic" VNone)); auto.
Qed.

(** A request without a [mnemonic] attribute is looked up as [None]: unless
    some stored row has no mnemonic, it is not refused here, and the new
    organization has [None] for its mnemonic (and for a missing name). *)
Theorem create_restore_object_without_mnemonic
  (attrs : gmap string value) (instance : option Organization) (w : World) :
  attrs !! "mnemonic" = None ->
  (forall r, In r (objects w) -> mnemonic r <> VNone) ->
  exists o,
    create_restore_object default_company default_website attrs instance w = (Some o, w) /\
    mnemonic o = VNone /\
    (attrs !! "name" = None -> name o = VNone).
Proof.
  intros Habs Hrows.
  assert (Hm : dict_get attrs "mnemonic" VNone = VNone).
  { now apply SerializersFacts.dict_get_absent. }
  rewrite SerializersFacts.create_restore_object_free.
  - eexists. split; [reflexivity|]. simpl. repeat split; try assumption.
    intros Hn. now apply SerializersFacts.dict_get_absent.
  - rewrite Hm. now apply SerializersFacts.mnemonic_exists_false.
Qed.

End CreateMore.

Lemma create_restore_object_fresh_mnemonic_witness :
  mkWorld ∅ [who] = mkWorld ∅ [who] /\
  uuid (mkOrganization None true (VStr "OCL") (VStr "Open Concept Lab")
          VNone VNone VNone) = None /\
  (forall r, In r [who] -> mnemonic r <> VStr "OCL") /\
  (NoDup (map mnemonic [who]) ->
   NoDup (map mnemonic ([who] ++
     [mkOrganization None true (VStr "OCL") (VStr "Open Concept Lab")
        VNone VNone VNone])%list)).
Proof.
  apply (create_restore_object_fresh_mnemonic VNone VNone ocl_attrs None
           (mkWorld ∅ [who]) (mkWorld ∅ [who])).
  vm_compute. reflexivity.
Defined.

Lemma create_restore_object_reads_mnemonics_witness :
  fst (create_restore_object VNone VNone {["mnemonic" := VStr "WHO"]} None
         (mkWorld ∅ [who])) =
  fst (create_restore_object VNone VNone {["mnemonic" := VStr "WHO"]} None
         (mkWorld ∅ [set_website (VStr "http://who.int") (set_name VNone who)])) /\
  _errors (snd (create_restore_object VNone VNone {["mnemonic" := VStr "WHO"]} None
                  (mkWorld ∅ [who]))) =
  _errors (snd (create_restore_object VNone VNone {["mnemonic" := VStr "WHO"]} None
                  (mkWorld ∅ [set_website (VStr "http://who.int") (set_name VNone who)]))).
Proof.
  apply create_restore_object_reads_mnemonics.
  intros m. simpl. tauto.
Defined.

Lemma create_restore_object_without_mnemonic_witness :
  exists o,
    create_restore_object VNone VNone {["name" := VStr "Nameless"]} None
      (mkWorld ∅ [who]) = (Some o, mkWorld ∅ [who]) /\
    mnemonic o = VNone /\
    (({["name" := VStr "Nameless"]} : gmap string value) !! "name" = None ->
       name o = VNone).
Proof.
  apply (create_restore_object_without_mnemonic VNone VNone
           {["name" := VStr "Nameless"]} None (mkWorld ∅ [who])).
  - vm_compute. reflexivity.
  - intros r [<- | []]. discriminate.
Defined.

End OrganizationFacts.

(** ** Default fields of the detail serializer *)

Module FieldsFacts.
Import Fields.

(** Whatever the parent class supplies, the default fields of the detail
    serializer hold the three hyperlink fields with their view names, keep
    every other field as supplied, and fixing them a second time changes
    nothing. *)
Theorem get_default_fields_adds_urls (super_fields : gmap string Field) :
  get_default_fields super_fields !! "members_url" =
    Some (HyperlinkedResourceIdentityField "organization-members") /\
  get_default_fields super_fields !! "sources_url" =
    Some (HyperlinkedResourceIdentityField "source-list") /\
  get_default_fields super_fields !! "collections_url" =
    Some (HyperlinkedResourceIdentityField "collection-list") /\
  (forall key, ~ In key url_fields ->
     get_default_fields super_fields !! key = super_fields !! key) /\
  (forall key, is_Some (super_fields !! key) ->
     is_Some (get_default_fields super_fields !! key)) /\
  get_default_fields (get_default_fields super_fields) =
    get_default_fields super_fields.
Proof.
  unfold get_default_fields. repeat split.
  - apply lookup_insert_eq.
  - rewrite lookup_insert_ne by discriminate. apply lookup_insert_eq.
  - rewrite !lookup_insert_ne by discriminate. apply lookup_insert_eq.
  - intros key Hkey. unfold url_fields in Hkey. simpl in Hkey.
    rewrite !lookup_insert_ne; [reflexivity | | |]; intros E; subst key; tauto.
  - intros key Hsome.
    destruct (decide (key = "members_url")) as [-> | H1];
      [rewrite lookup_insert_eq; eauto | rewrite lookup_insert_ne by congruence].
    destruct (decide (key = "sources_url")) as [-> | H2];
      [rewrite lookup_insert_eq; eauto | rewrite lookup_insert_ne by congruence].
    destruct (decide (key = "collections_url")) as [-> | H3];
      [rewrite lookup_insert_eq; eauto | rewrite lookup_insert_ne by congruence].
    exact Hsome.
  - apply map_eq. intros key. rewrite !lookup_insert.
    repeat case_decide; try reflexivity; congruence.
Qed.

End FieldsFacts.
